(** * dcm-demo: the DICOM cataloguing notebook of the pixels repository

    The notebook [dcm-demo.py] is a straight sequence of calls into
    Databricks utilities ([dbutils], [spark], [display]), PySpark
    dataframes and the [databricks.pixels] package.  It is embedded here as
    a program over the signature [Ext] of those calls: every Python
    statement of the notebook is one or more [Call] nodes, Python variables
    are Rocq binders, and a run against an arbitrary behaviour of the
    libraries yields the list of calls made, the result or the exception
    that ended the run, and the final state of the outside world. *)

From Stdlib Require Import Ascii String.
From stdpp Require Import base gmap strings list.

Open Scope string_scope.
Open Scope list_scope.

(** ** Python objects the notebook handles *)

(** A Python exception object: class name and message. *)
Inductive PyExn := Exception (cls msg : string).

(** A cell of a dataframe row. *)
Inductive Cell :=
| CNull
| CStr (s : string)
| CInt (z : Z)
| CArr (l : list string).

(** A row: one cell per column of its dataframe, in column order. *)
Abbreviation Row := (list Cell).

(** A dataframe, evaluated: its columns and its rows. *)
Record DataFrame := mkDF { df_columns : list string; df_rows : list Row }.

(** An entry returned by [dbutils.fs.ls]. *)
Record FileInfo := mkFile { fi_path : string; fi_name : string; fi_size : Z }.

(** The object built by [DicomMetaExtractor()]. *)
Inductive MetaExtractor := DicomMetaExtractor.

(** The object built by [DicomFrames(df, withMeta=..., inputCol=...)]. *)
Record Frames := mkFrames
  { fr_df : DataFrame; fr_withMeta : bool; fr_inputCol : string }.

(** What [plotx()] returns: one rendered thumbnail per plotted row. *)
Record Plots := mkPlots { thumbnails : list string }.

(** Values handed to [print], [display] or shown as the value of a cell. *)
Inductive PyValue :=
| PStr (s : string)
| PInt (z : Z)
| PFiles (l : list FileInfo)
| PDF (d : DataFrame)
| PPlots (p : Plots).

(** ** The calls the notebook makes

    One constructor per library entry point used in [dcm-demo.py]; the
    index is the Python type of the value the call returns.  The [spark]
    session argument of [Catalog.catalog] and [Catalog.load] is the global
    session and is part of the outside world. *)
Inductive Ext : Type → Type :=
| Pip (args : string) : Ext unit
| WidgetsText (name default label : string) : Ext unit
| WidgetsGet (name : string) : Ext string
| ConfSet (key value : string) : Ext unit
| PyPrint (args : list PyValue) : Ext unit
| FsLs (path : string) : Ext (list FileInfo)
| Display (v : PyValue) : Ext unit
| PyImport (module : string) (names : list string) : Ext unit
| CatalogCatalog (path : string) : Ext DataFrame
| CatalogSave (df : DataFrame) (table mode : string) : Ext unit
| CatalogLoad (table : string) : Ext DataFrame
| Sql (text : string) : Ext DataFrame
| SparkTable (table : string) : Ext DataFrame
| DfCount (df : DataFrame) : Ext Z
| DfRepartition (n : Z) (df : DataFrame) : Ext DataFrame
| DfFilter (condition : string) (df : DataFrame) : Ext DataFrame
| DfLimit (n : Z) (df : DataFrame) : Ext DataFrame
| NewDicomMetaExtractor : Ext MetaExtractor
| Transform (t : MetaExtractor) (df : DataFrame) : Ext DataFrame
| NewDicomFrames (df : DataFrame) (withMeta : bool) (inputCol : string) : Ext Frames
| Plotx (f : Frames) : Ext Plots
| CellOut (v : PyValue) : Ext unit.

(** ** Programs

    Python statement sequences over [Ext].  [Raise] and [Try] are Python's
    [raise] and [try ... except]; a program that uses neither and whose
    continuations never inspect a result is a straight line of calls. *)
Inductive prog (R : Type) : Type :=
| Ret (r : R)
| Call {X : Type} (c : Ext X) (k : X → prog R)
| Raise (e : PyExn)
| Try {X : Type} (body : prog X) (except : PyExn → prog X) (k : X → prog R).

Arguments Ret {R} r.
Arguments Call {R X} c k.
Arguments Raise {R} e.
Arguments Try {R X} body except k.

Fixpoint bind {A B : Type} (p : prog A) (f : A → prog B) : prog B :=
  match p with
  | Ret a => f a
  | Call c k => Call c (λ x, bind (k x) f)
  | Raise e => Raise e
  | Try body except k => Try body except (λ x, bind (k x) f)
  end.

(** A single call, as a program. *)
Definition call {X : Type} (c : Ext X) : prog X := Call c Ret.

Declare Scope py_scope.
Delimit Scope py_scope with py.
Notation "x <- p ;; q" := (bind p (λ x, q))
  (at level 100, p at next level, right associativity) : py_scope.
Notation "p ;; q" := (bind p (λ _, q))
  (at level 100, right associativity) : py_scope.
Open Scope py_scope.

(** ** Runs *)

(** One step of a run: the call and what the library answered. *)
Record Step := mkStep
  { st_type : Type; st_call : Ext st_type; st_resp : PyExn + st_type }.

Definition raised (s : Step) : option PyExn :=
  match st_resp s with inl e => Some e | inr _ => None end.

Record Run (R W : Type) := mkRun
  { trace : list Step; outcome : PyExn + R; final : W }.

Arguments mkRun {R W} trace outcome final.
Arguments trace {R W} r.
Arguments outcome {R W} r.
Arguments final {R W} r.

(** The behaviour of the libraries over a world [W]: every call either
    raises or returns, and may change the world. *)
Definition Handler (W : Type) : Type := ∀ X : Type, Ext X → W → (PyExn + X) * W.

Definition after {R W : Type} (s : Step) (r : Run R W) : Run R W :=
  mkRun (s :: trace r) (outcome r) (final r).

Definition splice {R W : Type} (t : list Step) (r : Run R W) : Run R W :=
  mkRun (t ++ trace r) (outcome r) (final r).

Fixpoint run {W : Type} (h : Handler W) {R : Type} (p : prog R) (w : W) : Run R W :=
  match p with
  | Ret r => mkRun [] (inr r) w
  | Raise e => mkRun [] (inl e) w
  | Call c k =>
      match h _ c w with
      | (inl e, w') => mkRun [mkStep _ c (inl e)] (inl e) w'
      | (inr x, w') => after (mkStep _ c (inr x)) (run h (k x) w')
      end
  | Try body except k =>
      let r1 := run h body w in
      match outcome r1 with
      | inr x => splice (trace r1) (run h (k x) (final r1))
      | inl e =>
          let r2 := run h (except e) (final r1) in
          match outcome r2 with
          | inr x => splice (trace r1 ++ trace r2) (run h (k x) (final r2))
          | inl e' => mkRun (trace r1 ++ trace r2) (inl e') (final r2)
          end
      end
  end.

(** ** The notebook, cell by cell

    Each definition is one code cell of [dcm-demo.py]; the values a cell
    leaves in Python variables for later cells are its result. *)

(** [%pip install -r requirements.txt] *)
Definition cell_requirements : prog unit :=
  call (Pip "install -r requirements.txt").

(** Collect raw input path and catalog table. *)
Definition cell_widgets : prog (string * string) :=
  call (WidgetsText "path" "s3://hls-eng-data-public/dicom/ddsm/"
          "1.0 Path to directory tree containing files. /dbfs or s3:// supported") ;;
  call (WidgetsText "table" "<catalog>.<schema>.<table>"
          "2.0 Catalog Schema Table to store object metadata into") ;;
  path <- call (WidgetsGet "path") ;;
  table <- call (WidgetsGet "table") ;;
  call (ConfSet "c.table" table) ;;
  call (PyPrint [PStr path; PStr table]) ;;
  Ret (path, table).

(** [display(dbutils.fs.ls(path))] *)
Definition cell_ls (path : string) : prog unit :=
  files <- call (FsLs path) ;;
  call (Display (PFiles files)).

(** Catalog the objects and files. *)
Definition cell_catalog (path : string) : prog DataFrame :=
  call (PyImport "databricks.pixels" ["Catalog"; "DicomFrames"]) ;;
  catalog_df <- call (CatalogCatalog path) ;;
  call (Display (PDF catalog_df)) ;;
  Ret catalog_df.

(** Save Metadata as a 'object metadata catalog'. *)
Definition cell_save (catalog_df : DataFrame) (table : string) : prog unit :=
  call (CatalogSave catalog_df table "overwrite").

Definition sql_count_star : string := "select count(*) from ${c.table}".

Definition cell_sql_count_star : prog DataFrame := call (Sql sql_count_star).

(** Load Catalog from Delta Lake. *)
Definition cell_load (table : string) : prog DataFrame :=
  call (PyImport "databricks.pixels" ["Catalog"]) ;;
  catalog_df <- call (CatalogLoad table) ;;
  call (Display (PDF catalog_df)) ;;
  Ret catalog_df.

(** [catalog_df.count()] *)
Definition cell_count (catalog_df : DataFrame) : prog Z :=
  n <- call (DfCount catalog_df) ;;
  call (CellOut (PInt n)) ;;
  Ret n.

(** Use a Transformer for metadata extraction. *)
Definition cell_extract (catalog_df : DataFrame) (table : string) : prog DataFrame :=
  call (PyImport "databricks.pixels" ["DicomMetaExtractor"]) ;;
  meta <- call NewDicomMetaExtractor ;;
  repartitioned <- call (DfRepartition 10000 catalog_df) ;;
  meta_df <- call (Transform meta repartitioned) ;;
  call (CatalogSave meta_df table "overwrite") ;;
  stored <- call (SparkTable table) ;;
  call (Display (PDF stored)) ;;
  Ret meta_df.

Definition sql_count_one : string := "select count(1) from ${c.table}".

Definition sql_patients : string :=
  "SELECT meta:['00100010'].Value[0].Alphabetic as patient_name, meta:hash, meta:img_min, meta:img_max, path, meta
FROM ${c.table}".

Definition sql_patient7747 : string :=
  "SELECT rowid, meta:hash, meta:['00100010'].Value[0].Alphabetic as patient_name, meta:img_min, meta:img_max, path, meta
FROM ${c.table}
WHERE array_contains( path_tags, 'patient7747' )
order by patient_name".

(** Analyze Metadata: the three [%sql] cells. *)
Definition cell_analyze : prog unit :=
  call (Sql sql_count_one) ;;
  call (Sql sql_patients) ;;
  call (Sql sql_patient7747) ;;
  Ret tt.

Definition filter_condition : string := "meta:img_max < 1000".

(** Filter Dicom Images. *)
Definition cell_filter (table : string) : prog (DataFrame * Z) :=
  call (PyImport "databricks.pixels" ["Catalog"]) ;;
  loaded <- call (CatalogLoad table) ;;
  filtered <- call (DfFilter filter_condition loaded) ;;
  dcm_df_filtered <- call (DfRepartition 1000 filtered) ;;
  n <- call (DfCount dcm_df_filtered) ;;
  call (CellOut (PInt n)) ;;
  Ret (dcm_df_filtered, n).

(** Display Dicom Images. *)
Definition cell_plot (dcm_df_filtered : DataFrame) : prog Plots :=
  call (PyImport "databricks.pixels" ["DicomFrames"]) ;;
  limited <- call (DfLimit 100 dcm_df_filtered) ;;
  frames <- call (NewDicomFrames limited true "local_path") ;;
  plots <- call (Plotx frames) ;;
  Ret plots.

(** The last cell: [plots]. *)
Definition cell_show (plots : Plots) : prog unit :=
  call (CellOut (PPlots plots)).

(** What the notebook leaves in its variables when it completes. *)
Record Vars := mkVars
  { v_path : string; v_table : string; v_catalog_df : DataFrame;
    v_meta_df : DataFrame; v_dcm_df_filtered : DataFrame; v_plots : Plots }.

Definition notebook : prog Vars :=
  cell_requirements ;;
  params <- cell_widgets ;;
  let '(path, table) := params in
  cell_ls path ;;
  catalog_df <- cell_catalog path ;;
  cell_save catalog_df table ;;
  cell_sql_count_star ;;
  catalog_df <- cell_load table ;;
  cell_count catalog_df ;;
  meta_df <- cell_extract catalog_df table ;;
  cell_analyze ;;
  filtered <- cell_filter table ;;
  let '(dcm_df_filtered, _) := filtered in
  plots <- cell_plot dcm_df_filtered ;;
  cell_show plots ;;
  Ret (mkVars path table catalog_df meta_df dcm_df_filtered plots).

(** ** Reading a run *)

(** The Python name of the entry point a call goes to. *)
Definition callee {X : Type} (c : Ext X) : string :=
  match c with
  | Pip _ => "%pip"
  | WidgetsText _ _ _ => "dbutils.widgets.text"
  | WidgetsGet _ => "dbutils.widgets.get"
  | ConfSet _ _ => "spark.conf.set"
  | PyPrint _ => "print"
  | FsLs _ => "dbutils.fs.ls"
  | Display _ => "display"
  | PyImport _ _ => "import"
  | CatalogCatalog _ => "Catalog.catalog"
  | CatalogSave _ _ _ => "Catalog.save"
  | CatalogLoad _ => "Catalog.load"
  | Sql _ => "%sql"
  | SparkTable _ => "spark.table"
  | DfCount _ => "DataFrame.count"
  | DfRepartition _ _ => "DataFrame.repartition"
  | DfFilter _ _ => "DataFrame.filter"
  | DfLimit _ _ => "DataFrame.limit"
  | NewDicomMetaExtractor => "DicomMetaExtractor"
  | Transform _ _ => "DicomMetaExtractor.transform"
  | NewDicomFrames _ _ _ => "DicomFrames"
  | Plotx _ => "DicomFrames.plotx"
  | CellOut _ => "cell value"
  end.

Definition callees (t : list Step) : list string :=
  (λ s, callee (st_call s)) <$> t.

(** The calls of [dcm-demo.py] in source order, lines 39 to 167. *)
Definition notebook_calls : list string :=
  [ "%pip";
    "dbutils.widgets.text"; "dbutils.widgets.text";
    "dbutils.widgets.get"; "dbutils.widgets.get";
    "spark.conf.set"; "print";
    "dbutils.fs.ls"; "display";
    "import"; "Catalog.catalog"; "display";
    "Catalog.save";
    "%sql";
    "import"; "Catalog.load"; "display";
    "DataFrame.count"; "cell value";
    "import"; "DicomMetaExtractor"; "DataFrame.repartition";
    "DicomMetaExtractor.transform"; "Catalog.save"; "spark.table"; "display";
    "%sql"; "%sql"; "%sql";
    "import"; "Catalog.load"; "DataFrame.filter"; "DataFrame.repartition";
    "DataFrame.count"; "cell value";
    "import"; "DataFrame.limit"; "DicomFrames"; "DicomFrames.plotx";
    "cell value" ].

(** [follows names p]: [p] is a straight line of calls to [names], in this
    order, whatever the libraries return: it neither raises nor catches, and
    which call comes next never depends on a result. *)
Fixpoint follows {R : Type} (names : list string) (p : prog R) {struct p} : Prop :=
  match p with
  | Ret _ => names = []
  | Call c k =>
      match names with
      | name :: names' => callee c = name ∧ ∀ x, follows names' (k x)
      | [] => False
      end
  | Raise _ | Try _ _ _ => False
  end.

(** The kinds of operation the specification's summary of the notebook
    speaks of. *)
Inductive SpecOp :=
| ReadParameter | ListFiles | Cataloging | Persist | Reload
| ExtractMetadata | Query | FilterRows | Plot.

Global Instance SpecOp_eq_dec : EqDecision SpecOp.
Proof. solve_decision. Defined.

Definition spec_op {X : Type} (c : Ext X) : option SpecOp :=
  match c with
  | WidgetsGet _ => Some ReadParameter
  | FsLs _ => Some ListFiles
  | CatalogCatalog _ => Some Cataloging
  | CatalogSave _ _ _ => Some Persist
  | CatalogLoad _ | SparkTable _ => Some Reload
  | Transform _ _ => Some ExtractMetadata
  | Sql _ => Some Query
  | DfFilter _ _ => Some FilterRows
  | Plotx _ => Some Plot
  | _ => None
  end.

Definition spec_ops (t : list Step) : list SpecOp :=
  omap (λ s, spec_op (st_call s)) t.

(** The sequence as the specification words it, with [queries] declarative
    queries: read the two configuration strings, list files, catalog,
    persist, reload, extract metadata, persist again, query, filter, plot. *)
Definition spec_sequence (queries : nat) : list SpecOp :=
  [ReadParameter; ReadParameter; ListFiles; Cataloging; Persist; Reload;
   ExtractMetadata; Persist] ++ replicate queries Query ++ [FilterRows; Plot].

(** The same kinds in the order the source has them. *)
Definition source_sequence : list SpecOp :=
  [ReadParameter; ReadParameter; ListFiles; Cataloging; Persist; Query;
   Reload; ExtractMetadata; Persist; Reload; Query; Query; Query;
   Reload; FilterRows; Plot].

(** The value a successful [dbutils.widgets.get(name)] step returned. *)
Definition got (name : string) (s : Step) : option string :=
  match s with
  | mkStep _ c r =>
      match c in Ext X return PyExn + X → option string with
      | WidgetsGet n => λ r,
          match r with
          | inr v => if decide (n = name) then Some v else None
          | inl _ => None
          end
      | _ => λ _, None
      end r
  end.

Definition widget_value (name : string) (t : list Step) : option string :=
  head (omap (got name) t).

(** The parameters a run reads and the widgets it declares. *)
Definition parameter_reads (t : list Step) : list string :=
  omap (λ s, match st_call s with WidgetsGet n => Some n | _ => None end) t.

Definition text_widgets (t : list Step) : list string :=
  omap (λ s, match st_call s with WidgetsText n _ _ => Some n | _ => None end) t.

(** *** Tables a step addresses *)

Definition lower (a : Ascii.ascii) : Ascii.ascii :=
  let n := Ascii.nat_of_ascii a in
  if bool_decide (65 ≤ n ≤ 90)%nat then Ascii.ascii_of_nat (n + 32) else a.

Fixpoint lowercase (s : string) : string :=
  match s with
  | EmptyString => EmptyString
  | String a s' => String (lower a) (lowercase s')
  end.

(** The table expressions of a SQL text: the word after each [FROM]. *)
Fixpoint from_targets (ws : list string) : list string :=
  match ws with
  | [] => []
  | w :: rest =>
      match rest with
      | t :: _ =>
          if decide (lowercase w = "from") then t :: from_targets rest
          else from_targets rest
      | [] => []
      end
  end.

(** [placeholder "${key}" = Some "key"]: a configuration variable reference
    of Spark SQL's variable substitution. *)
Definition placeholder (w : string) : option string :=
  match w with
  | String "$"%char (String "{"%char body) =>
      match String.rev body with
      | String "}"%char key => Some (String.rev key)
      | _ => None
      end
  | _ => None
  end.

Definition resolve (conf : gmap string string) (target : string) : option string :=
  match placeholder target with
  | Some key => conf !! key
  | None => Some target
  end.

Definition sql_tables (conf : gmap string string) (text : string) : list (option string) :=
  resolve conf <$> from_targets (String.words text).



Definition saves (t : list Step) : list (DataFrame * string * string) :=
  omap (λ s, match st_call s with
             | CatalogSave df table mode => Some (df, table, mode)
             | _ => None
             end) t.

(** *** Where the objects passed to the libraries come from *)

Inductive Obj :=
| OStr (s : string)
| OInt (z : Z)
| OFiles (l : list FileInfo)
| ODF (d : DataFrame)
| OExtractor (m : MetaExtractor)
| OFrames (f : Frames)
| OPlots (p : Plots).

Definition obj_of (v : PyValue) : Obj :=
  match v with
  | PStr s => OStr s
  | PInt z => OInt z
  | PFiles l => OFiles l
  | PDF d => ODF d
  | PPlots p => OPlots p
  end.

(** The arguments of a call that are data, as opposed to the names, modes,
    sizes and SQL texts written out in the source. *)
Definition data_args {X : Type} (c : Ext X) : list Obj :=
  match c with
  | Pip _ | WidgetsText _ _ _ | WidgetsGet _ | PyImport _ _ | Sql _
  | NewDicomMetaExtractor => []
  | ConfSet _ value => [OStr value]
  | PyPrint args => obj_of <$> args
  | FsLs path | CatalogCatalog path => [OStr path]
  | Display v | CellOut v => [obj_of v]
  | CatalogSave df table _ => [ODF df; OStr table]
  | CatalogLoad table | SparkTable table => [OStr table]
  | DfCount df | DfRepartition _ df | DfFilter _ df | DfLimit _ df => [ODF df]
  | Transform t df => [OExtractor t; ODF df]
  | NewDicomFrames df _ _ => [ODF df]
  | Plotx f => [OFrames f]
  end.

Definition result_obj {X : Type} (c : Ext X) : X → list Obj :=
  match c in Ext X return X → list Obj with
  | WidgetsGet _ => λ s, [OStr s]
  | FsLs _ => λ l, [OFiles l]
  | CatalogCatalog _ | CatalogLoad _ | Sql _ | SparkTable _
  | DfRepartition _ _ | DfFilter _ _ | DfLimit _ _ | Transform _ _ => λ d, [ODF d]
  | DfCount _ => λ n, [OInt n]
  | NewDicomMetaExtractor => λ m, [OExtractor m]
  | NewDicomFrames _ _ _ => λ f, [OFrames f]
  | Plotx _ => λ p, [OPlots p]
  | _ => λ _, []
  end.

Definition returned (s : Step) : list Obj :=
  match s with
  | mkStep _ c (inr x) => result_obj c x
  | mkStep _ _ (inl _) => []
  end.

(** [handed_on known t]: every data argument of every step of [t] is an
    object in [known] or one an earlier step of [t] returned. *)
Fixpoint handed_on (known : list Obj) (t : list Step) : Prop :=
  match t with
  | [] => True
  | s :: t' =>
      Forall (λ o, o ∈ known) (data_args (st_call s))
      ∧ handed_on (returned s ++ known) t'
  end.

(** No step of [t] raised. *)
Definition clean (t : list Step) : Prop := Forall (λ s, raised s = None) t.

(** The successful [count()] steps: the dataframe counted and the number. *)
Definition counts (t : list Step) : list (DataFrame * Z) :=
  omap (λ s,
    match s with
    | mkStep _ c r =>
        match c in Ext X return PyExn + X → option (DataFrame * Z) with
        | DfCount df => λ r, match r with inr n => Some (df, n) | inl _ => None end
        | _ => λ _, None
        end r
    end) t.

(** The [filter], [limit] and [plotx] steps with their arguments. *)
Definition filters (t : list Step) : list (string * DataFrame) :=
  omap (λ s, match st_call s with DfFilter c df => Some (c, df) | _ => None end) t.

Definition limits (t : list Step) : list (Z * DataFrame) :=
  omap (λ s, match st_call s with DfLimit n df => Some (n, df) | _ => None end) t.

Definition plotted (t : list Step) : list Frames :=
  omap (λ s, match st_call s with Plotx f => Some f | _ => None end) t.

(** The dataframes handed to [DicomMetaExtractor.transform]. *)
Definition transformed (t : list Step) : list DataFrame :=
  omap (λ s, match st_call s with Transform _ df => Some df | _ => None end) t.

(** ** The libraries over a model of the workspace

    [World] is what the notebook's calls act on: the widgets of the
    notebook, the spark configuration, the persisted tables and what has
    been shown to the user.  Dataframes are taken evaluated; the row order
    of a dataframe carries no meaning.

    In this model a call raises only where the notebook's own data decide
    it: listing or cataloging a path, a SQL statement, reading a widget
    that is not declared, loading a table that does not exist.  Every
    other call is taken to return.  What the notebook does when any call
    whatever raises is stated against arbitrary libraries ([Handler]),
    not against this model. *)
Record World := mkWorld
  { widgets : gmap string string;
    conf : gmap string string;
    tables : gmap string DataFrame;
    output : list PyValue }.

Definition set_widgets (f : gmap string string → gmap string string) (w : World) : World :=
  mkWorld (f (widgets w)) (conf w) (tables w) (output w).

Definition set_conf (f : gmap string string → gmap string string) (w : World) : World :=
  mkWorld (widgets w) (f (conf w)) (tables w) (output w).

Definition set_tables (f : gmap string DataFrame → gmap string DataFrame) (w : World) : World :=
  mkWorld (widgets w) (conf w) (f (tables w)) (output w).

Definition show (vs : list PyValue) (w : World) : World :=
  mkWorld (widgets w) (conf w) (tables w) (output w ++ vs).

(** What the storage, the DICOM files and the SQL engine contribute; none
    of it is written in this repository's notebook. *)
Class Engine := mkEngine
  { (** [dbutils.fs.ls] on the storage *)
    ls : string → PyExn + list FileInfo;
    (** the file catalog [Catalog.catalog] builds for a path *)
    catalog : string → PyExn + DataFrame;
    (** the result of a [%sql] statement under a configuration and tables *)
    query : gmap string string → gmap string DataFrame → string → PyExn + DataFrame;
    (** the rows of a dataframe after [repartition(n)] *)
    shuffle : Z → DataFrame → DataFrame;
    (** whether a row of the given columns satisfies a SQL condition *)
    satisfies : string → list string → Row → bool;
    (** the JSON text of the DICOM header of the file a row refers to *)
    dicom_meta : list string → Row → string;
    (** the thumbnail of a row, given [withMeta] and [inputCol] *)
    thumbnail : bool → string → list string → Row → string }.

(** What [repartition] is relied on for: it moves rows between partitions
    and neither adds, drops nor changes any. *)
Class EngineLaws (E : Engine) : Prop :=
  { shuffle_columns : ∀ n df, df_columns (shuffle n df) = df_columns df;
    shuffle_rows : ∀ n df, df_rows (shuffle n df) ≡ₚ df_rows df }.

Definition ok {X : Type} (x : X) (w : World) : (PyExn + X) * World := (inr x, w).

Definition fail {X : Type} (e : PyExn) (w : World) : (PyExn + X) * World := (inl e, w).

Definition lift {X : Type} (r : PyExn + X) (w : World) : (PyExn + X) * World := (r, w).

(** [dbutils.widgets.text]: creates the widget with its default value
    unless the notebook already has it. *)
Definition widgets_text (name default : string) (ws : gmap string string)
    : gmap string string :=
  match ws !! name with
  | Some _ => ws
  | None => <[name := default]> ws
  end.

(** Modelled from the spec: [Catalog.save] of [databricks.pixels] is not in
    src/.  It persists the dataframe to the managed table; with
    [mode="overwrite"] the dataframe replaces what the table held, with
    [mode="append"] its rows are added to the table. *)
Definition catalog_save (df : DataFrame) (table mode : string) (w : World)
    : (PyExn + unit) * World :=
  if decide (mode = "overwrite") then ok tt (set_tables <[table := df]> w)
  else if decide (mode = "append") then
    match tables w !! table with
    | Some old =>
        ok tt (set_tables <[table := mkDF (df_columns old) (df_rows old ++ df_rows df)]> w)
    | None => ok tt (set_tables <[table := df]> w)
    end
  else fail (Exception "IllegalArgumentException" mode) w.

(** Modelled from the spec: [Catalog.load] of [databricks.pixels] is not in
    src/.  It reloads the persisted table into a dataframe; a missing table
    is a failure. *)
Definition catalog_load (table : string) (w : World) : (PyExn + DataFrame) * World :=
  match tables w !! table with
  | Some df => ok df w
  | None => fail (Exception "AnalysisException" table) w
  end.

(** Modelled from the spec: [DicomMetaExtractor.transform] of
    [databricks.pixels] is not in src/.  The metadata dataframe is the
    catalog dataframe augmented with a column, named [meta], holding the
    serialized (JSON) text of the metadata of each image. *)
Definition extract_meta `{Engine} (df : DataFrame) : DataFrame :=
  mkDF (df_columns df ++ ["meta"])
       ((λ r : Row, r ++ [CStr (dicom_meta (df_columns df) r)]) <$> df_rows df).

(** Modelled from the spec: [DicomFrames.plotx] of [databricks.pixels] is
    not in src/.  It renders one thumbnail for each row of the dataframe
    the [DicomFrames] object was built from. *)
Definition plotx `{Engine} (f : Frames) : Plots :=
  mkPlots (thumbnail (fr_withMeta f) (fr_inputCol f) (df_columns (fr_df f))
             <$> df_rows (fr_df f)).

(** PySpark's [DataFrame.filter], [limit] and [count]. *)
Definition df_filter `{Engine} (condition : string) (df : DataFrame) : DataFrame :=
  mkDF (df_columns df) (List.filter (satisfies condition (df_columns df)) (df_rows df)).

Definition df_limit (n : Z) (df : DataFrame) : DataFrame :=
  mkDF (df_columns df) (take (Z.to_nat n) (df_rows df)).

Definition df_count (df : DataFrame) : Z := Z.of_nat (length (df_rows df)).

Definition libraries `{Engine} : Handler World := λ X c,
  match c in Ext X return World → (PyExn + X) * World with
  | Pip _ => ok tt
  | WidgetsText name default _ => λ w, ok tt (set_widgets (widgets_text name default) w)
  | WidgetsGet name => λ w,
      match widgets w !! name with
      | Some v => ok v w
      | None => fail (Exception "InputWidgetNotDefined" name) w
      end
  | ConfSet key value => λ w, ok tt (set_conf <[key := value]> w)
  | PyPrint args => λ w, ok tt (show args w)
  | FsLs path => lift (ls path)
  | Display v => λ w, ok tt (show [v] w)
  | PyImport _ _ => ok tt
  | CatalogCatalog path => lift (catalog path)
  | CatalogSave df table mode => catalog_save df table mode
  | CatalogLoad table => catalog_load table
  | Sql text => λ w, lift (query (conf w) (tables w) text) w
  | SparkTable table => catalog_load table
  | DfCount df => ok (df_count df)
  | DfRepartition n df => ok (shuffle n df)
  | DfFilter condition df => ok (df_filter condition df)
  | DfLimit n df => ok (df_limit n df)
  | NewDicomMetaExtractor => ok DicomMetaExtractor
  | Transform _ df => ok (extract_meta df)
  | NewDicomFrames df withMeta inputCol => ok (mkFrames df withMeta inputCol)
  | Plotx f => ok (plotx f)
  | CellOut v => λ w, ok tt (show [v] w)
  end.

(** ** A small workspace to run the notebook on *)
Module Demo.

Definition files : list FileInfo :=
  [ mkFile "s3://demo/dicom/patient7747/a.dcm" "a.dcm" 2048;
    mkFile "s3://demo/dicom/patient7747/b.dcm" "b.dcm" 4096;
    mkFile "s3://demo/dicom/patient0001/c.dcm" "c.dcm" 1024 ].

(** Columns [path], [local_path], [path_tags] and, for the sake of the
    example, the largest pixel value of the image. *)
Definition catalog_df : DataFrame :=
  mkDF ["path"; "local_path"; "path_tags"; "pixel_max"]
    [ [CStr "s3://demo/dicom/patient7747/a.dcm"; CStr "/dbfs/demo/a.dcm";
       CArr ["patient7747"; "a"]; CInt 255];
      [CStr "s3://demo/dicom/patient7747/b.dcm"; CStr "/dbfs/demo/b.dcm";
       CArr ["patient7747"; "b"]; CInt 4095];
      [CStr "s3://demo/dicom/patient0001/c.dcm"; CStr "/dbfs/demo/c.dcm";
       CArr ["patient0001"; "c"]; CInt 999] ].

Definition cell_text (c : option Cell) : string :=
  match c with
  | Some (CStr s) => s
  | _ => ""
  end.

Definition below_1000 (c : option Cell) : bool :=
  match c with
  | Some (CInt z) => (z <? 1000)%Z
  | _ => false
  end.

Definition engine : Engine :=
  {| ls := λ path,
       if decide (path = "s3://demo/dicom/") then inr files
       else inl (Exception "FileNotFoundException" path);
     catalog := λ path,
       if decide (path = "s3://demo/dicom/") then inr catalog_df
       else inl (Exception "FileNotFoundException" path);
     query := λ conf tables text,
       match sql_tables conf text with
       | [Some table] =>
           match tables !! table with
           | Some df => inr df
           | None => inl (Exception "AnalysisException" table)
           end
       | _ => inl (Exception "ParseException" text)
       end;
     shuffle := λ _ df, mkDF (df_columns df) (reverse (df_rows df));
     satisfies := λ condition _ r,
       bool_decide (condition = "meta:img_max < 1000") && below_1000 (r !! 3%nat);
     dicom_meta := λ _ r, "{img_max: ...}";
     thumbnail := λ _ inputCol _ r, cell_text (r !! 1%nat) |}.

Definition world : World :=
  {| widgets := {[ "path" := "s3://demo/dicom/";
                   "table" := "main.pixels.object_catalog" ]};
     conf := ∅;
     tables := {[ "main.pixels.object_catalog" := mkDF ["stale"] [[CInt 0]] ]};
     output := [] |}.

End Demo.

(** The run of the notebook on the demo workspace. *)
Definition demo_run : Run Vars World :=
  run (@libraries Demo.engine) notebook Demo.world.

(** Two workspaces with the same widgets, configuration and tables; what
    has been shown so far may differ. *)
Definition same_state (u1 u2 : World) : Prop :=
  widgets u1 = widgets u2 ∧ conf u1 = conf u2 ∧ tables u1 = tables u2.

(** The demo workspace after an earlier cell printed something. *)
Definition demo_world_used : World :=
  show [PStr "an earlier run"] Demo.world.

(** The values the two widgets have once [cell_widgets] has declared them:
    what the user entered, or the default of the declaration. *)
Definition path_of (w : World) : string :=
  default "s3://hls-eng-data-public/dicom/ddsm/" (widgets w !! "path").

Definition table_of (w : World) : string :=
  default "<catalog>.<schema>.<table>" (widgets w !! "table").

(** The variables the run on the demo workspace ends with. *)
Definition demo_vars : Vars :=
  Eval vm_compute in
    match outcome demo_run with
    | inr v => v
    | inl _ => mkVars "" "" (mkDF [] []) (mkDF [] []) (mkDF [] []) (mkPlots [])
    end.

(** ** Order and data flow within a run *)

(** [widgets_declared declared t]: every widget a step of [t] reads is in
    [declared] or was declared by an earlier step of [t] that returned. *)
Fixpoint widgets_declared (declared : list string) (t : list Step) : Prop :=
  match t with
  | [] => True
  | s :: t' =>
      match st_call s with
      | WidgetsText name _ _ =>
          widgets_declared
            (match raised s with None => name :: declared | Some _ => declared end) t'
      | WidgetsGet name => name ∈ declared ∧ widgets_declared declared t'
      | _ => widgets_declared declared t'
      end
  end.

(** The name of [databricks.pixels] a call needs to have been imported;
    [transform] and [plotx] are methods of objects already built. *)
Definition needs {X : Type} (c : Ext X) : option string :=
  match c with
  | CatalogCatalog _ | CatalogSave _ _ _ | CatalogLoad _ => Some "Catalog"
  | NewDicomMetaExtractor => Some "DicomMetaExtractor"
  | NewDicomFrames _ _ _ => Some "DicomFrames"
  | _ => None
  end.

(** [imported_before_use imported t]: every step of [t] that needs a name
    finds it in [imported] or imported by an earlier step that returned. *)
Fixpoint imported_before_use (imported : list string) (t : list Step) : Prop :=
  match t with
  | [] => True
  | s :: t' =>
      match st_call s with
      | PyImport _ names =>
          imported_before_use
            (match raised s with None => names ++ imported | Some _ => imported end) t'
      | c =>
          match needs c with
          | Some name => name ∈ imported
          | None => True
          end
          ∧ imported_before_use imported t'
      end
  end.

(** [written_before_read conf saved t]: every step of [t] that reads a
    table ([Catalog.load], [spark.table], a SQL text under the
    configuration set so far) reads one in [saved] or one an earlier
    [Catalog.save] of [t] that returned has written. *)
Fixpoint written_before_read (conf : gmap string string) (saved : list string)
    (t : list Step) : Prop :=
  match t with
  | [] => True
  | s :: t' =>
      match st_call s with
      | ConfSet key value =>
          written_before_read
            (match raised s with None => <[key := value]> conf | Some _ => conf end)
            saved t'
      | CatalogSave _ table _ =>
          written_before_read conf
            (match raised s with None => table :: saved | Some _ => saved end) t'
      | CatalogLoad table | SparkTable table =>
          table ∈ saved ∧ written_before_read conf saved t'
      | Sql text =>
          Forall (λ a, ∃ table, a = Some table ∧ table ∈ saved) (sql_tables conf text)
          ∧ written_before_read conf saved t'
      | _ => written_before_read conf saved t'
      end
  end.

(** The dataframe a step returned, with the dataframe it was called on:
    for [Catalog.catalog] and [Catalog.load], which are called on none,
    only what they returned. *)
Definition cataloged (t : list Step) : list DataFrame :=
  omap (λ s,
    match s with
    | mkStep _ c r =>
        match c in Ext X return PyExn + X → option DataFrame with
        | CatalogCatalog _ => λ r, match r with inr d => Some d | inl _ => None end
        | _ => λ _, None
        end r
    end) t.

Definition loads (t : list Step) : list (string * DataFrame) :=
  omap (λ s,
    match s with
    | mkStep _ c r =>
        match c in Ext X return PyExn + X → option (string * DataFrame) with
        | CatalogLoad table =>
            λ r, match r with inr d => Some (table, d) | inl _ => None end
        | _ => λ _, None
        end r
    end) t.

(** [(n, df, out)]: [df.repartition(n)] returned [out]. *)
Definition repartitions (t : list Step) : list (Z * DataFrame * DataFrame) :=
  omap (λ s,
    match s with
    | mkStep _ c r =>
        match c in Ext X return PyExn + X → option (Z * DataFrame * DataFrame) with
        | DfRepartition n df =>
            λ r, match r with inr d => Some (n, df, d) | inl _ => None end
        | _ => λ _, None
        end r
    end) t.

(** [(condition, df, out)]: [df.filter(condition)] returned [out]. *)
Definition filtered (t : list Step) : list (string * DataFrame * DataFrame) :=
  omap (λ s,
    match s with
    | mkStep _ c r =>
        match c in Ext X return PyExn + X → option (string * DataFrame * DataFrame) with
        | DfFilter condition df =>
            λ r, match r with inr d => Some (condition, df, d) | inl _ => None end
        | _ => λ _, None
        end r
    end) t.

(** A library call that returned. *)
Definition returns {X : Type} (r : PyExn + X) : Prop := ∃ x, r = inr x.

(** ** More demo workspaces *)

(** The demo workspace with a path that does not exist on the storage. *)
Definition demo_world_bad_path : World :=
  set_widgets <["path" := "s3://demo/missing/"]> Demo.world.

(** What a run shows to the user in the notebook, the installation log of
    [%pip] apart: the arguments of [print] and [display], the result grid
    of every [%sql] cell and the values of the cells, in order. *)
Definition shown (t : list Step) : list PyValue :=
  concat ((λ s,
    match s with
    | mkStep _ c r =>
        match c in Ext X return PyExn + X → list PyValue with
        | PyPrint args => λ _, args
        | Display v | CellOut v => λ _, [v]
        | Sql _ => λ r, match r with inr d => [PDF d] | inl _ => [] end
        | _ => λ _, []
        end r
    end) <$> t).

(** What [dbutils.fs.ls] and [spark.table] returned. *)
Definition listed (t : list Step) : list (list FileInfo) :=
  omap (λ s,
    match s with
    | mkStep _ c r =>
        match c in Ext X return PyExn + X → option (list FileInfo) with
        | FsLs _ => λ r, match r with inr l => Some l | inl _ => None end
        | _ => λ _, None
        end r
    end) t.

Definition table_reads (t : list Step) : list DataFrame :=
  omap (λ s,
    match s with
    | mkStep _ c r =>
        match c in Ext X return PyExn + X → option DataFrame with
        | SparkTable _ => λ r, match r with inr d => Some d | inl _ => None end
        | _ => λ _, None
        end r
    end) t.

(** ** The operations of a run, with what they were given and returned *)

(** A call of the run that returned and carries data: the parameter read,
    the path listed or cataloged, the dataframe and table persisted, the
    SQL text run, the table reloaded, the dataframe repartitioned,
    transformed, filtered or limited, the frames built and plotted; each
    with the value the call returned. *)
Inductive Operation :=
| ReadsParameter (name value : string)
| ListsFiles (path : string) (files : list FileInfo)
| Catalogs (path : string) (result : DataFrame)
| Persists (df : DataFrame) (table mode : string)
| Queries (text : string) (result : DataFrame)
| Reloads (table : string) (result : DataFrame)
| ReadsTable (table : string) (result : DataFrame)
| Repartitions (n : Z) (given result : DataFrame)
| Extracts (given result : DataFrame)
| Filters (condition : string) (given result : DataFrame)
| Limits (n : Z) (given result : DataFrame)
| BuildsFrames (given : DataFrame) (withMeta : bool) (inputCol : string)
    (result : Frames)
| Renders (frames : Frames) (result : Plots).

Definition operation (s : Step) : option Operation :=
  match s with
  | mkStep _ c r =>
      match c in Ext X return PyExn + X → option Operation with
      | WidgetsGet name => λ r,
          match r with inr v => Some (ReadsParameter name v) | inl _ => None end
      | FsLs path => λ r,
          match r with inr l => Some (ListsFiles path l) | inl _ => None end
      | CatalogCatalog path => λ r,
          match r with inr d => Some (Catalogs path d) | inl _ => None end
      | CatalogSave df table mode => λ r,
          match r with inr _ => Some (Persists df table mode) | inl _ => None end
      | Sql text => λ r,
          match r with inr d => Some (Queries text d) | inl _ => None end
      | CatalogLoad table => λ r,
          match r with inr d => Some (Reloads table d) | inl _ => None end
      | SparkTable table => λ r,
          match r with inr d => Some (ReadsTable table d) | inl _ => None end
      | DfRepartition n df => λ r,
          match r with inr d => Some (Repartitions n df d) | inl _ => None end
      | Transform _ df => λ r,
          match r with inr d => Some (Extracts df d) | inl _ => None end
      | DfFilter condition df => λ r,
          match r with inr d => Some (Filters condition df d) | inl _ => None end
      | DfLimit n df => λ r,
          match r with inr d => Some (Limits n df d) | inl _ => None end
      | NewDicomFrames df withMeta inputCol => λ r,
          match r with
          | inr f => Some (BuildsFrames df withMeta inputCol f)
          | inl _ => None
          end
      | Plotx f => λ r,
          match r with inr p => Some (Renders f p) | inl _ => None end
      | _ => λ _, None
      end r
  end.

Definition operations (t : list Step) : list Operation := omap operation t.

(** * Properties *)

(** ** Runs of programs in general *)
Section Runs.
Context {W : Type} (h : Handler W).

Lemma run_bind {A B : Type} (p : prog A) (f : A → prog B) (w : W) :
  run h (bind p f) w =
  match outcome (run h p w) with
  | inr a => splice (trace (run h p w)) (run h (f a) (final (run h p w)))
  | inl e => mkRun (trace (run h p w)) (inl e) (final (run h p w))
  end.
Proof.
  revert B f w.
  induction p as [A a|A X c k IH|A e|A X body _ except _ k IHk];
    intros B f w; simpl.
  - by destruct (run h (f a) w).
  - destruct (h X c w) as [[e|x] w']; simpl; [done|].
    rewrite IH. by destruct (outcome (run h (k x) w')).
  - done.
  - destruct (outcome (run h body w)) as [e|x]; simpl.
    + destruct (outcome (run h (except e) (final (run h body w)))) as [e'|x];
        simpl; [done|].
      rewrite IHk. destruct (outcome (run h (k x) _));
        unfold splice; simpl; by rewrite ?app_assoc.
    + rewrite IHk. destruct (outcome (run h (k x) _));
        unfold splice; simpl; by rewrite ?app_assoc.
Qed.

(** A straight line of calls ends with its result when every call
    returns, and otherwise with the exception of the one call that raised,
    which is the last call made. *)
Lemma follows_run {R : Type} (names : list string) (p : prog R) (w : W) :
  follows names p →
  match outcome (run h p w) with
  | inr _ => clean (trace (run h p w)) ∧ callees (trace (run h p w)) = names
  | inl e =>
      ∃ t s, trace (run h p w) = t ++ [s] ∧ clean t ∧ raised s = Some e
             ∧ callees (trace (run h p w)) `prefix_of` names
  end.
Proof.
  revert names w.
  induction p as [R r|R X c k IH|R e|R X body _ except _ k _];
    intros names w Hf; simpl in *; try done.
  - split; [apply Forall_nil_2|by rewrite Hf].
  - destruct names as [|name names]; [done|]. destruct Hf as [Hc Hk].
    destruct (h X c w) as [[e|x] w']; simpl.
    + exists [], (mkStep X c (inl e)). repeat split; [apply Forall_nil_2|].
      rewrite Hc. by exists names.
    + specialize (IH x names w' (Hk x)).
      destruct (outcome (run h (k x) w')) as [e|r].
      * destruct IH as (t & s & Ht & Hclean & Hs & Hpre).
        exists (mkStep X c (inr x) :: t), s. repeat split; try done.
        -- by rewrite Ht.
        -- by constructor.
        -- unfold callees in *. simpl. rewrite Hc. by apply prefix_cons.
      * destruct IH as [Hclean Hn]. split; [by constructor|].
        unfold callees in *. simpl. by rewrite Hn, Hc.
Qed.
End Runs.

(** Libraries that behave alike, step for step, make a program run alike:
    the calls a program makes are determined by the answers it gets. *)
Lemma run_alike {W1 W2 : Type} (h1 : Handler W1) (h2 : Handler W2)
    (related : W1 → W2 → Prop) {R : Type} (p : prog R) (w1 : W1) (w2 : W2) :
  (∀ X (c : Ext X) u1 u2, related u1 u2 →
     (h1 X c u1).1 = (h2 X c u2).1 ∧ related (h1 X c u1).2 (h2 X c u2).2) →
  related w1 w2 →
  trace (run h1 p w1) = trace (run h2 p w2)
  ∧ outcome (run h1 p w1) = outcome (run h2 p w2)
  ∧ related (final (run h1 p w1)) (final (run h2 p w2)).
Proof.
  intros Hh. revert w1 w2.
  induction p as [R r|R X c k IH|R e|R X body IHb except IHe k IHk];
    intros w1 w2 Hw; simpl; try done.
  - destruct (Hh X c w1 w2 Hw) as [Hr Hw'].
    destruct (h1 X c w1) as [r1 u1], (h2 X c w2) as [r2 u2]; simpl in *; subst r2.
    destruct r1 as [e|x]; simpl; [done|].
    destruct (IH x u1 u2 Hw') as (-> & -> & ?). done.
  - destruct (IHb w1 w2 Hw) as (Ht & Ho & Hf). rewrite <- Ht, <- Ho.
    destruct (outcome (run h1 body w1)) as [e|x].
    + destruct (IHe e _ _ Hf) as (Ht' & Ho' & Hf'). rewrite <- Ht', <- Ho'.
      destruct (outcome (run h1 (except e) _)) as [e'|x]; [done|].
      destruct (IHk x _ _ Hf') as (Htk & Hok & Hfk). simpl. by rewrite Htk, Hok.
    + destruct (IHk x _ _ Hf) as (Htk & Hok & Hfk). simpl. by rewrite Htk, Hok.
Qed.

(** ** The notebook against arbitrary libraries *)

Ltac unfold_cells :=
  unfold notebook, cell_requirements, cell_widgets, cell_ls, cell_catalog,
    cell_save, cell_sql_count_star, cell_load, cell_count, cell_extract,
    cell_analyze, cell_filter, cell_plot, cell_show, call;
  cbn [bind].

(** Runs the notebook symbolically: one case for each call that may raise
    and one for the run in which none does. *)
Ltac exec h :=
  match goal with
  | |- context [run h notebook ?w] =>
      let r := fresh "r" in
      let Hr := fresh "Hr" in
      remember (run h notebook w) as r eqn:Hr;
      revert Hr; unfold_cells; cbn [run];
      repeat (match goal with
              | |- context [h ?X ?c ?u] =>
                  let e := fresh "e" in
                  let x := fresh "x" in
                  let u' := fresh "w" in
                  destruct (h X c u) as [[e|x] u'];
                  cbn [run after trace outcome final]
              end);
      intros ->; cbn [after trace outcome final]
  end.

(** Closes the goals a symbolic run leaves about the steps of a trace. *)
Ltac solve_elem :=
  first [apply list_elem_of_here | apply list_elem_of_further; solve_elem].

Ltac solve_order :=
  repeat match goal with
         | |- True => exact I
         | |- _ ∧ _ => split
         | |- Forall _ [] => apply Forall_nil_2
         | |- Forall _ (_ :: _) => apply Forall_cons
         | |- ∃ table, Some ?x = Some table ∧ _ => exists x
         | |- _ = _ => reflexivity
         | |- _ => solve_elem
         end.

Lemma notebook_follows : follows notebook_calls notebook.
Proof. unfold_cells. simpl. repeat (split; [reflexivity|intros]). reflexivity. Qed.

(** C1, as stated, does not hold: on the demo workspace the operations of
    the run are not the sequence of the specification, however many
    queries it is read with.  The count query of line 84 runs between the
    first save and the reload, and the table is read again at lines 116
    and 153. *)
Lemma notebook_not_spec_sequence :
  ¬ ∃ queries, spec_ops (trace demo_run) = spec_sequence queries.
Proof. intros [queries H]. vm_compute in H. discriminate H. Qed.

(** C1, amended: a run of the notebook that completes makes the calls of
    [notebook_calls], in this order, whatever the libraries return; in the
    terms of the specification these are the operations of
    [source_sequence], of which the sequence of the specification (with the
    three queries of the Analyze cells) is a subsequence.  The operations
    work on each other's results: the two parameters read are the path
    and the table; the path is listed and cataloged; the catalog built is
    persisted to the table with [overwrite]; the count query runs; the
    table is reloaded, the reload is repartitioned into 10000 and given to
    the transformer, whose result is persisted to the table with
    [overwrite]; the table is read back and the three queries run; the
    table is reloaded again, the reload filtered with
    [meta:img_max < 1000], repartitioned into 1000, limited to 100, made
    into frames with [withMeta=True] and [inputCol="local_path"], and
    plotted. *)
Theorem notebook_sequence {W : Type} (h : Handler W) (w : W) (v : Vars) :
  outcome (run h notebook w) = inr v →
  callees (trace (run h notebook w)) = notebook_calls
  ∧ spec_ops (trace (run h notebook w)) = source_sequence
  ∧ spec_sequence 3 `sublist_of` spec_ops (trace (run h notebook w))
  ∧ ∃ files cat counted repartitioned stored counted' patients patient7747
      reloaded kept limited frames,
      operations (trace (run h notebook w)) =
      [ ReadsParameter "path" (v_path v);
        ReadsParameter "table" (v_table v);
        ListsFiles (v_path v) files;
        Catalogs (v_path v) cat;
        Persists cat (v_table v) "overwrite";
        Queries "select count(*) from ${c.table}" counted;
        Reloads (v_table v) (v_catalog_df v);
        Repartitions 10000 (v_catalog_df v) repartitioned;
        Extracts repartitioned (v_meta_df v);
        Persists (v_meta_df v) (v_table v) "overwrite";
        ReadsTable (v_table v) stored;
        Queries sql_count_one counted';
        Queries sql_patients patients;
        Queries sql_patient7747 patient7747;
        Reloads (v_table v) reloaded;
        Filters "meta:img_max < 1000" reloaded kept;
        Repartitions 1000 kept (v_dcm_df_filtered v);
        Limits 100 (v_dcm_df_filtered v) limited;
        BuildsFrames limited true "local_path" frames;
        Renders frames (v_plots v) ].
Proof.
  intros H. split.
  - pose proof (follows_run h notebook_calls notebook w notebook_follows) as Hf.
    rewrite H in Hf. apply Hf.
  - assert (spec_ops (trace (run h notebook w)) = source_sequence) as ->.
    { revert H. exec h; intros H; try discriminate H. reflexivity. }
    split; [reflexivity|]. split.
    + unfold spec_sequence, source_sequence. simpl.
      repeat first [apply sublist_nil | apply sublist_skip | apply sublist_cons].
    + revert H. exec h; intros H; try discriminate H.
      injection H as <-. eexists _, _, _, _, _, _, _, _, _, _, _, _.
      vm_compute. reflexivity.
Qed.

Lemma notebook_sequence_witness :
  callees (trace demo_run) = notebook_calls
  ∧ spec_ops (trace demo_run) = source_sequence
  ∧ spec_sequence 3 `sublist_of` spec_ops (trace demo_run)
  ∧ ∃ files cat counted repartitioned stored counted' patients patient7747
      reloaded kept limited frames,
      operations (trace demo_run) =
      [ ReadsParameter "path" (v_path demo_vars);
        ReadsParameter "table" (v_table demo_vars);
        ListsFiles (v_path demo_vars) files;
        Catalogs (v_path demo_vars) cat;
        Persists cat (v_table demo_vars) "overwrite";
        Queries "select count(*) from ${c.table}" counted;
        Reloads (v_table demo_vars) (v_catalog_df demo_vars);
        Repartitions 10000 (v_catalog_df demo_vars) repartitioned;
        Extracts repartitioned (v_meta_df demo_vars);
        Persists (v_meta_df demo_vars) (v_table demo_vars) "overwrite";
        ReadsTable (v_table demo_vars) stored;
        Queries sql_count_one counted';
        Queries sql_patients patients;
        Queries sql_patient7747 patient7747;
        Reloads (v_table demo_vars) reloaded;
        Filters "meta:img_max < 1000" reloaded kept;
        Repartitions 1000 kept (v_dcm_df_filtered demo_vars);
        Limits 100 (v_dcm_df_filtered demo_vars) limited;
        BuildsFrames limited true "local_path" frames;
        Renders frames (v_plots demo_vars) ].
Proof.
  apply (notebook_sequence (@libraries Demo.engine) Demo.world demo_vars).
  vm_compute. reflexivity.
Defined.

(** C2: the only parameters the notebook reads are the two text widgets
    [path] and [table], each declared once and read once, in this order.
    Declaring and reading them is part of every run: the notebook is the
    straight line of [notebook_calls], a run in which no call raises has
    declared and read both, and a run that stops early has declared and
    read a prefix of them.  The values read are the path and the table the
    notebook works with. *)
Theorem parameter_intake {W : Type} (h : Handler W) (w : W) :
  let t := trace (run h notebook w) in
  follows notebook_calls notebook
  ∧ parameter_reads t `prefix_of` ["path"; "table"]
  ∧ text_widgets t `prefix_of` ["path"; "table"]
  ∧ (clean t →
       parameter_reads t = ["path"; "table"]
       ∧ text_widgets t = ["path"; "table"]
       ∧ ∃ v, outcome (run h notebook w) = inr v
              ∧ widget_value "path" t = Some (v_path v)
              ∧ widget_value "table" t = Some (v_table v))
  ∧ ∀ v, outcome (run h notebook w) = inr v →
      parameter_reads t = ["path"; "table"]
      ∧ text_widgets t = ["path"; "table"]
      ∧ widget_value "path" t = Some (v_path v)
      ∧ widget_value "table" t = Some (v_table v).
Proof.
  cbv zeta. split; [apply notebook_follows|]. exec h.
  all: split; [|split; [|split]].
  all: try (intros v Hv;
            first [discriminate Hv
                  | injection Hv as <-; split; [|split; [|split]]; reflexivity]).
  all: try (intros Hclean;
            first [ exfalso; unfold clean in Hclean;
                    rewrite Forall_forall in Hclean;
                    match goal with
                    | e : PyExn |- _ =>
                        match type of Hclean with
                        | context [mkStep ?X ?c (inl e)] =>
                            specialize (Hclean (mkStep X c (inl e)));
                            discriminate Hclean; solve_elem
                        end
                    end
                  | split; [|split]; [reflexivity|reflexivity|];
                    eexists; split; [|split]; reflexivity ]).
  all: vm_compute;
    first [by exists ["path"; "table"] | by exists ["table"] | by exists []].
Qed.

(** On the demo workspace the notebook completes, and has read both. *)
Lemma parameter_intake_witness :
  parameter_reads (trace demo_run) = ["path"; "table"]
  ∧ text_widgets (trace demo_run) = ["path"; "table"]
  ∧ widget_value "path" (trace demo_run) = Some "s3://demo/dicom/"
  ∧ widget_value "table" (trace demo_run) = Some "main.pixels.object_catalog".
Proof.
  apply (proj2 (proj2 (proj2 (proj2
           (parameter_intake (@libraries Demo.engine) Demo.world))))
           demo_vars).
  vm_compute. reflexivity.
Defined.

(** C3: the notebook neither validates nor handles failures.  It is a
    straight line of library calls whatever strings the widgets return;
    when a call raises, the run ends there with that very exception (no
    further call is made), and when no call raises the run completes. *)
Theorem exceptions_propagate {W : Type} (h : Handler W) (w : W) :
  follows notebook_calls notebook
  ∧ match outcome (run h notebook w) with
    | inr _ => clean (trace (run h notebook w))
    | inl e =>
        ∃ t s, trace (run h notebook w) = t ++ [s] ∧ clean t ∧ raised s = Some e
    end.
Proof.
  split; [apply notebook_follows|].
  pose proof (follows_run h notebook_calls notebook w notebook_follows) as Hf.
  destruct (outcome (run h notebook w)) as [e|v].
  - destruct Hf as (t & s & Ht & Hclean & Hs & _). by exists t, s.
  - apply Hf.
Qed.

(** The libraries of the workspace model answer a call from the widgets,
    the configuration and the tables alone. *)
Lemma libraries_same_state `{Engine} {X : Type} (c : Ext X) (u1 u2 : World) :
  same_state u1 u2 →
  (libraries X c u1).1 = (libraries X c u2).1
  ∧ same_state (libraries X c u1).2 (libraries X c u2).2.
Proof.
  destruct u1 as [ws1 cf1 tb1 out1], u2 as [ws2 cf2 tb2 out2].
  intros (Hw & Hc & Ht). simpl in Hw, Hc, Ht. subst ws2 cf2 tb2.
  destruct c; simpl; unfold lift, catalog_save, catalog_load, ok, fail; simpl;
    repeat case_decide; repeat case_match; simpl; done.
Qed.

(** C5: the notebook has no branch, loop or handler of its own, so two
    runs against libraries that behave alike make the same calls with the
    same arguments in the same order and end alike. *)
Theorem runs_repeat {W1 W2 : Type} (h1 : Handler W1) (h2 : Handler W2)
    (related : W1 → W2 → Prop) (w1 : W1) (w2 : W2) :
  (∀ X (c : Ext X) u1 u2, related u1 u2 →
     (h1 X c u1).1 = (h2 X c u2).1 ∧ related (h1 X c u1).2 (h2 X c u2).2) →
  related w1 w2 →
  follows notebook_calls notebook
  ∧ trace (run h1 notebook w1) = trace (run h2 notebook w2)
  ∧ outcome (run h1 notebook w1) = outcome (run h2 notebook w2).
Proof.
  intros Hh Hw. split; [apply notebook_follows|].
  destruct (run_alike h1 h2 related notebook w1 w2 Hh Hw) as (Ht & Ho & _).
  by split.
Qed.

Lemma runs_repeat_witness :
  follows notebook_calls notebook
  ∧ trace demo_run = trace (run (@libraries Demo.engine) notebook demo_world_used)
  ∧ outcome demo_run = outcome (run (@libraries Demo.engine) notebook demo_world_used).
Proof.
  apply (runs_repeat (@libraries Demo.engine) (@libraries Demo.engine) same_state).
  - intros X c u1 u2. apply libraries_same_state.
  - repeat split.
Defined.

(** C6: the notebook only passes objects on.  Every path, table name,
    dataframe, transformer, frames object, count or plot it hands to a
    library call is one that an earlier library call returned, unchanged;
    everything else in a call is written out in the source. *)
Theorem library_calls_only {W : Type} (h : Handler W) (w : W) :
  follows notebook_calls notebook
  ∧ handed_on [] (trace (run h notebook w)).
Proof.
  split; [apply notebook_follows|].
  exec h.
  all: cbn [handed_on st_call data_args returned result_obj obj_of fmap list_fmap app].
  all: repeat match goal with
       | |- _ ∧ _ => split
       | |- Forall _ [] => apply Forall_nil_2
       | |- Forall _ (_ :: _) => apply Forall_cons
       | |- True => exact I
       | |- ?x ∈ ?x :: _ => apply list_elem_of_here
       | |- _ ∈ _ :: _ => apply list_elem_of_further
       end.
Qed.

(** The four SQL texts of the notebook take their rows from the table
    variable [c.table], and from nothing else. *)
Lemma sql_texts_from_table :
  Forall (λ text, from_targets (String.words text) = ["${c.table}"])
    [sql_count_star; sql_count_one; sql_patients; sql_patient7747].
Proof. repeat constructor. Qed.

Lemma sql_tables_table (conf : gmap string string) (table text : string) :
  from_targets (String.words text) = ["${c.table}"] →
  sql_tables (<["c.table" := table]> conf) text = [Some table].
Proof.
  intros H. unfold sql_tables. rewrite H. simpl. unfold resolve. simpl.
  change (String.rev "elbat.c") with "c.table". by rewrite lookup_insert_eq.
Qed.


(** ** The notebook in the workspace model *)

Lemma widgets_text_eq (name value : string) (ws : gmap string string) :
  widgets_text name value ws !! name = Some (default value (ws !! name)).
Proof.
  unfold widgets_text. destruct (ws !! name) as [v|] eqn:Hv; simpl; [done|].
  by rewrite lookup_insert_eq.
Qed.

Lemma widgets_text_ne (name value other : string) (ws : gmap string string) :
  name ≠ other → widgets_text name value ws !! other = ws !! other.
Proof.
  intros Hne. unfold widgets_text. destruct (ws !! name); [done|].
  by rewrite lookup_insert_ne.
Qed.

Lemma catalog_save_overwrite (df : DataFrame) (table : string) (w : World) :
  catalog_save df table "overwrite" w = ok tt (set_tables <[table := df]> w).
Proof. unfold catalog_save. by case_decide. Qed.

Ltac lib_cbn :=
  cbn [run libraries ok fail lift set_widgets set_conf set_tables show
       widgets conf tables output fst snd].

(** One step of the model: a widget, a save or a load is looked up in the
    maps. *)
Ltac lib_lookup :=
  first
    [ rewrite widgets_text_eq
    | rewrite widgets_text_ne by done
    | rewrite catalog_save_overwrite
    | rewrite lookup_insert_eq
    | progress unfold catalog_load ].

(** Runs the notebook in the model, with a case for each answer of the
    storage and of the SQL engine. *)
Ltac exec_lib :=
  repeat (lib_cbn;
          first
            [ lib_lookup
            | match goal with
              | |- context [ls ?p] => destruct (ls p) as [?|?] eqn:?
              | |- context [catalog ?p] => destruct (catalog p) as [?|?] eqn:?
              | |- context [query ?c ?t ?q] =>
                  destruct (query c t q) as [?|?] eqn:?
              end ]).

(** What a completed run of the notebook has done, in terms of the
    workspace it started from. *)
Lemma completed_run `{Engine} (w : World) (v : Vars) :
  outcome (run libraries notebook w) = inr v →
  ∃ files cat,
    ls (path_of w) = inr files
    ∧ catalog (path_of w) = inr cat
    ∧ v = mkVars (path_of w) (table_of w) cat
            (extract_meta (shuffle 10000 cat))
            (shuffle 1000
               (df_filter filter_condition (extract_meta (shuffle 10000 cat))))
            (plotx (mkFrames
               (df_limit 100
                  (shuffle 1000
                     (df_filter filter_condition
                        (extract_meta (shuffle 10000 cat)))))
               true "local_path"))
    ∧ tables (final (run libraries notebook w)) =
        <[table_of w := v_meta_df v]> (<[table_of w := cat]> (tables w))
    ∧ saves (trace (run libraries notebook w)) =
        [(cat, table_of w, "overwrite"); (v_meta_df v, table_of w, "overwrite")]
    ∧ transformed (trace (run libraries notebook w)) = [shuffle 10000 cat]
    ∧ filters (trace (run libraries notebook w)) =
        [(filter_condition, v_meta_df v)]
    ∧ counts (trace (run libraries notebook w)) =
        [(cat, df_count cat);
         (v_dcm_df_filtered v, df_count (v_dcm_df_filtered v))]
    ∧ limits (trace (run libraries notebook w)) = [(100%Z, v_dcm_df_filtered v)]
    ∧ plotted (trace (run libraries notebook w)) =
        [mkFrames (df_limit 100 (v_dcm_df_filtered v)) true "local_path"].
Proof.
  destruct w as [ws cf tb out]. unfold path_of, table_of. cbn [widgets tables].
  remember (run libraries notebook _) as r eqn:Hr. revert Hr.
  unfold_cells. exec_lib.
  all: intros ->; cbn [after trace outcome final]; intros Hv.
  all: try discriminate Hv.
  injection Hv as <-. eexists _, _.
  repeat (split; [eassumption || reflexivity|]). reflexivity.
Qed.

(** What the table named by the widget held before the run does not
    matter once the catalog has been saved over it. *)
Lemma stale_table_irrelevant `{Engine} (w : World) (stale : DataFrame)
    (files : list FileInfo) (cat : DataFrame) :
  ls (path_of w) = inr files →
  catalog (path_of w) = inr cat →
  run libraries notebook (set_tables <[table_of w := stale]> w)
  = run libraries notebook w.
Proof.
  destruct w as [ws cf tb out]. unfold path_of, table_of.
  cbn [widgets tables set_tables conf output]. intros Hls Hcat.
  unfold_cells.
  repeat (lib_cbn; first [lib_lookup | rewrite Hls | rewrite Hcat]).
  cbv [set_tables set_conf set_widgets show widgets conf tables output].
  rewrite !insert_insert_eq. reflexivity.
Qed.

Lemma demo_laws : EngineLaws Demo.engine.
Proof.
  split; intros n df; simpl; [done|]. apply reverse_Permutation.
Qed.

Lemma demo_completes : outcome demo_run = inr demo_vars.
Proof. vm_compute. reflexivity. Qed.

Lemma removelast_appended {A : Type} (f : list A → A) (rows : list (list A)) :
  @removelast A <$> ((λ r, r ++ [f r]) <$> rows) = rows.
Proof.
  induction rows as [|r rows IH]; [done|].
  rewrite !fmap_cons, removelast_last. f_equal. exact IH.
Qed.

(** C4: the metadata dataframe is the dataframe the transformer was given
    with one more column, [meta], holding a string for every row; dropping
    that cell from every row gives back the rows it was given.  What it
    was given is the reloaded catalog dataframe after [repartition]: the
    same columns and the same rows.  The notebook saves the result as it
    is. *)
Theorem metadata_augments_catalog `{E : Engine} {L : EngineLaws E}
    (w : World) (v : Vars) :
  outcome (run libraries notebook w) = inr v →
  ∃ given,
    transformed (trace (run libraries notebook w)) = [given]
    ∧ df_columns given = df_columns (v_catalog_df v)
    ∧ df_rows given ≡ₚ df_rows (v_catalog_df v)
    ∧ df_columns (v_meta_df v) = df_columns given ++ ["meta"]
    ∧ @removelast Cell <$> df_rows (v_meta_df v) = df_rows given
    ∧ Forall (λ r, ∃ json, last r = Some (CStr json)) (df_rows (v_meta_df v))
    ∧ saves (trace (run libraries notebook w)) !! 1%nat
      = Some (v_meta_df v, v_table v, "overwrite").
Proof.
  intros Hv. destruct (completed_run w v Hv)
    as (files & cat & _ & _ & -> & _ & Hsaves & Htr & _).
  exists (shuffle 10000 cat). cbn [v_catalog_df v_meta_df v_table] in *.
  repeat split.
  - exact Htr.
  - apply shuffle_columns.
  - apply shuffle_rows.
  - apply removelast_appended.
  - unfold extract_meta. cbn [df_rows]. apply Forall_fmap, Forall_forall.
    intros r _. simpl. eexists. apply last_snoc.
  - by rewrite Hsaves.
Qed.

Lemma metadata_augments_catalog_witness :
  ∃ given,
    transformed (trace demo_run) = [given]
    ∧ df_columns given = df_columns (v_catalog_df demo_vars)
    ∧ df_rows given ≡ₚ df_rows (v_catalog_df demo_vars)
    ∧ df_columns (v_meta_df demo_vars) = df_columns given ++ ["meta"]
    ∧ @removelast Cell <$> df_rows (v_meta_df demo_vars) = df_rows given
    ∧ Forall (λ r, ∃ json, last r = Some (CStr json)) (df_rows (v_meta_df demo_vars))
    ∧ saves (trace demo_run) !! 1%nat
      = Some (v_meta_df demo_vars, v_table demo_vars, "overwrite").
Proof.
  apply (@metadata_augments_catalog Demo.engine demo_laws Demo.world demo_vars).
  vm_compute. reflexivity.
Defined.

(** C8: both saves write the table named by the widget with
    [mode="overwrite"].  When the notebook completes, that table holds the
    metadata dataframe and every other table is as it was; what the table
    held before the run makes no difference to the run; and saving the
    catalog and then the metadata leaves the state that saving the
    metadata alone leaves. *)
Theorem overwrite_final_state `{Engine} (w : World) (v : Vars) (stale : DataFrame) :
  outcome (run libraries notebook w) = inr v →
  saves (trace (run libraries notebook w))
  = [(v_catalog_df v, v_table v, "overwrite"); (v_meta_df v, v_table v, "overwrite")]
  ∧ tables (final (run libraries notebook w))
    = <[v_table v := v_meta_df v]> (tables w)
  ∧ tables (final (run libraries notebook w)) !! v_table v = Some (v_meta_df v)
  ∧ run libraries notebook (set_tables <[v_table v := stale]> w)
    = run libraries notebook w
  ∧ ∀ catalog_df meta_df table u,
      final (run libraries (cell_save catalog_df table ;; cell_save meta_df table) u)
      = final (run libraries (cell_save meta_df table) u).
Proof.
  intros Hv. destruct (completed_run w v Hv)
    as (files & cat & Hls & Hcat & -> & Htables & Hsaves & _).
  cbn [v_catalog_df v_meta_df v_table] in *.
  rewrite Htables, Hsaves, insert_insert_eq, lookup_insert_eq.
  repeat split.
  - by apply (stale_table_irrelevant w stale files cat).
  - intros catalog_df meta_df table u.
    unfold cell_save, call. cbn [bind].
    repeat (cbn [run libraries ok after final]; rewrite ?catalog_save_overwrite).
    destruct u as [ws cf tb out]. unfold set_tables.
    cbn [widgets conf tables output]. by rewrite insert_insert_eq.
Qed.

Lemma overwrite_final_state_witness :
  saves (trace demo_run)
  = [(v_catalog_df demo_vars, v_table demo_vars, "overwrite");
     (v_meta_df demo_vars, v_table demo_vars, "overwrite")]
  ∧ tables (final demo_run)
    = <[v_table demo_vars := v_meta_df demo_vars]> (tables Demo.world)
  ∧ tables (final demo_run) !! v_table demo_vars = Some (v_meta_df demo_vars)
  ∧ run (@libraries Demo.engine) notebook
      (set_tables <[v_table demo_vars := Demo.catalog_df]> Demo.world)
    = demo_run
  ∧ ∀ catalog_df meta_df table u,
      final (run (@libraries Demo.engine)
               (cell_save catalog_df table ;; cell_save meta_df table) u)
      = final (run (@libraries Demo.engine) (cell_save meta_df table) u).
Proof.
  apply (@overwrite_final_state Demo.engine Demo.world demo_vars Demo.catalog_df).
  vm_compute. reflexivity.
Defined.

(** C9: the filter is applied to the reloaded table, which holds the
    metadata dataframe, with the condition [meta:img_max < 1000];
    [dcm_df_filtered] has exactly the rows of it that satisfy the
    condition, and the count that follows is their number. *)
Theorem filter_keeps_matching_rows `{E : Engine} {L : EngineLaws E}
    (w : World) (v : Vars) :
  outcome (run libraries notebook w) = inr v →
  let matching :=
    List.filter (satisfies "meta:img_max < 1000" (df_columns (v_meta_df v)))
      (df_rows (v_meta_df v)) in
  filters (trace (run libraries notebook w)) = [("meta:img_max < 1000", v_meta_df v)]
  ∧ df_columns (v_dcm_df_filtered v) = df_columns (v_meta_df v)
  ∧ df_rows (v_dcm_df_filtered v) ≡ₚ matching
  ∧ last (counts (trace (run libraries notebook w)))
    = Some (v_dcm_df_filtered v, Z.of_nat (length matching)).
Proof.
  intros Hv. destruct (completed_run w v Hv)
    as (files & cat & _ & _ & Hvars & _ & _ & _ & Hfilters & Hcounts & _).
  rewrite Hfilters, Hcounts. subst v.
  cbn [v_meta_df v_dcm_df_filtered last]. cbv zeta.
  pose proof (shuffle_rows 1000
    (df_filter filter_condition (extract_meta (shuffle 10000 cat)))) as Hrows.
  repeat split.
  - by rewrite shuffle_columns.
  - exact Hrows.
  - unfold df_count. by rewrite Hrows.
Qed.

Lemma filter_keeps_matching_rows_witness :
  filters (trace demo_run) = [("meta:img_max < 1000", v_meta_df demo_vars)]
  ∧ df_columns (v_dcm_df_filtered demo_vars) = df_columns (v_meta_df demo_vars)
  ∧ df_rows (v_dcm_df_filtered demo_vars)
    ≡ₚ List.filter
         (@satisfies Demo.engine "meta:img_max < 1000" (df_columns (v_meta_df demo_vars)))
         (df_rows (v_meta_df demo_vars))
  ∧ last (counts (trace demo_run))
    = Some (v_dcm_df_filtered demo_vars,
            Z.of_nat (length (List.filter
              (@satisfies Demo.engine "meta:img_max < 1000" (df_columns (v_meta_df demo_vars)))
              (df_rows (v_meta_df demo_vars))))).
Proof.
  apply (@filter_keeps_matching_rows Demo.engine demo_laws Demo.world demo_vars).
  vm_compute. reflexivity.
Defined.

(** C10: the plotting routine is given the first 100 rows of
    [dcm_df_filtered] at most: [limit(100)] is applied to it, the result
    goes to [DicomFrames] with [withMeta=True] and [inputCol="local_path"],
    and [plotx] renders one thumbnail for each of its rows. *)
Theorem at_most_100_thumbnails `{Engine} (w : World) (v : Vars) :
  outcome (run libraries notebook w) = inr v →
  limits (trace (run libraries notebook w)) = [(100%Z, v_dcm_df_filtered v)]
  ∧ plotted (trace (run libraries notebook w))
    = [mkFrames (df_limit 100 (v_dcm_df_filtered v)) true "local_path"]
  ∧ v_plots v = plotx (mkFrames (df_limit 100 (v_dcm_df_filtered v)) true "local_path")
  ∧ length (thumbnails (v_plots v))
    = (100 `min` length (df_rows (v_dcm_df_filtered v)))%nat
  ∧ (length (thumbnails (v_plots v)) ≤ 100)%nat.
Proof.
  intros Hv. destruct (completed_run w v Hv)
    as (files & cat & _ & _ & Hvars & _ & _ & _ & _ & _ & Hlimits & Hplotted).
  rewrite Hlimits, Hplotted. subst v. cbn [v_plots v_dcm_df_filtered].
  assert (∀ df, length (thumbnails (plotx (mkFrames (df_limit 100 df) true "local_path")))
                = (100 `min` length (df_rows df))%nat) as Hlen.
  { intros df. unfold plotx, df_limit. cbn [thumbnails fr_df df_rows].
    rewrite length_fmap, length_take. done. }
  repeat split; [apply Hlen|]. rewrite Hlen. lia.
Qed.

Lemma at_most_100_thumbnails_witness :
  limits (trace demo_run) = [(100%Z, v_dcm_df_filtered demo_vars)]
  ∧ plotted (trace demo_run)
    = [mkFrames (df_limit 100 (v_dcm_df_filtered demo_vars)) true "local_path"]
  ∧ v_plots demo_vars
    = @plotx Demo.engine (mkFrames (df_limit 100 (v_dcm_df_filtered demo_vars)) true "local_path")
  ∧ length (thumbnails (v_plots demo_vars))
    = (100 `min` length (df_rows (v_dcm_df_filtered demo_vars)))%nat
  ∧ (length (thumbnails (v_plots demo_vars)) ≤ 100)%nat.
Proof.
  apply (@at_most_100_thumbnails Demo.engine Demo.world demo_vars).
  vm_compute. reflexivity.
Defined.

(** ** Further properties of the notebook against arbitrary libraries *)

(** X1: a run that stops early has still made the calls of the source in
    source order, none skipped: its calls are a prefix of
    [notebook_calls], and a run never makes more than these 40 calls. *)
Theorem calls_in_source_order {W : Type} (h : Handler W) (w : W) :
  callees (trace (run h notebook w)) `prefix_of` notebook_calls
  ∧ (length (trace (run h notebook w)) ≤ 40)%nat.
Proof.
  assert (callees (trace (run h notebook w)) `prefix_of` notebook_calls) as Hp.
  { pose proof (follows_run h notebook_calls notebook w notebook_follows) as Hf.
    destruct (outcome (run h notebook w)) as [e|v].
    - by destruct Hf as (t & s & _ & _ & _ & Hp).
    - destruct Hf as [_ ->]. done. }
  split; [done|].
  apply prefix_length in Hp. unfold callees in Hp.
  rewrite length_fmap in Hp. exact Hp.
Qed.

(** X2: the notebook never reads a widget it has not declared: in every
    run each [dbutils.widgets.get(name)] comes after a
    [dbutils.widgets.text(name, ...)] that returned. *)
Theorem widgets_declared_before_read {W : Type} (h : Handler W) (w : W) :
  widgets_declared [] (trace (run h notebook w)).
Proof. exec h. all: vm_compute. all: solve_order. Qed.

(** X3: the notebook never uses a name of [databricks.pixels] it has not
    imported: in every run each call of [Catalog], [DicomMetaExtractor]
    and [DicomFrames] comes after an import of that name that returned. *)
Theorem names_imported_before_use {W : Type} (h : Handler W) (w : W) :
  imported_before_use [] (trace (run h notebook w)).
Proof. exec h. all: vm_compute. all: solve_order. Qed.

(** X4: the notebook never reads the table before it has written it: in
    every run each [Catalog.load], [spark.table] and SQL statement reads
    the table a [Catalog.save] of the same run has written, the SQL
    statements through [c.table], which is set before the first of them. *)
Theorem table_written_before_read {W : Type} (h : Handler W) (w : W) :
  written_before_read ∅ [] (trace (run h notebook w)).
Proof. exec h. all: vm_compute. all: solve_order. Qed.

(** X5: every stage reads what the stage before it persisted or returned.
    The first save persists what [Catalog.catalog] returned; the
    transformer is given the first reload, repartitioned into 10000; its
    result is what the second save persists; the filter is given the
    second reload, and [dcm_df_filtered] is its result repartitioned into
    1000. *)
Theorem stages_chain {W : Type} (h : Handler W) (w : W) (v : Vars) :
  outcome (run h notebook w) = inr v →
  let t := trace (run h notebook w) in
  ∃ cat repartitioned reloaded kept,
    cataloged t = [cat]
    ∧ saves t = [(cat, v_table v, "overwrite"); (v_meta_df v, v_table v, "overwrite")]
    ∧ loads t = [(v_table v, v_catalog_df v); (v_table v, reloaded)]
    ∧ repartitions t = [(10000%Z, v_catalog_df v, repartitioned);
                        (1000%Z, kept, v_dcm_df_filtered v)]
    ∧ transformed t = [repartitioned]
    ∧ filtered t = [("meta:img_max < 1000", reloaded, kept)].
Proof.
  intros Hv. cbv zeta. revert Hv. exec h; intros Hv; try discriminate Hv.
  injection Hv as <-. eexists _, _, _, _. vm_compute. solve_order.
Qed.

Lemma stages_chain_witness :
  ∃ cat repartitioned reloaded kept,
    cataloged (trace demo_run) = [cat]
    ∧ saves (trace demo_run)
      = [(cat, v_table demo_vars, "overwrite");
         (v_meta_df demo_vars, v_table demo_vars, "overwrite")]
    ∧ loads (trace demo_run)
      = [(v_table demo_vars, v_catalog_df demo_vars); (v_table demo_vars, reloaded)]
    ∧ repartitions (trace demo_run)
      = [(10000%Z, v_catalog_df demo_vars, repartitioned);
         (1000%Z, kept, v_dcm_df_filtered demo_vars)]
    ∧ transformed (trace demo_run) = [repartitioned]
    ∧ filtered (trace demo_run) = [("meta:img_max < 1000", reloaded, kept)].
Proof.
  apply (stages_chain (@libraries Demo.engine) Demo.world demo_vars).
  vm_compute. reflexivity.
Defined.

(** ** Further properties of the notebook in the workspace model *)

(** Ends the symbolic run of a goal about [r = run ...]: names the run
    and reduces what is asked of it. *)
Ltac read_run :=
  intros ->;
  cbn [after trace outcome final set_widgets set_conf set_tables show
       widgets conf tables output].

(** X6: a bad path costs nothing.  When listing the path or cataloging it
    fails, the run ends with that exception before any table is written:
    no [Catalog.save] has been called and the tables are as they were. *)
Theorem early_failure_writes_nothing `{Engine} (w : World) (e : PyExn) :
  ls (path_of w) = inl e
  ∨ (returns (ls (path_of w)) ∧ catalog (path_of w) = inl e) →
  outcome (run libraries notebook w) = inl e
  ∧ saves (trace (run libraries notebook w)) = []
  ∧ tables (final (run libraries notebook w)) = tables w.
Proof.
  destruct w as [ws cf tb out]. unfold path_of. cbn [widgets tables].
  intros Hfail.
  remember (run libraries notebook _) as r eqn:Hr. revert Hr. unfold_cells.
  destruct Hfail as [Hls|[[files Hls] Hcat]].
  - repeat (lib_cbn; first [lib_lookup | rewrite Hls]).
    read_run. by repeat split.
  - repeat (lib_cbn; first [lib_lookup | rewrite Hls | rewrite Hcat]).
    read_run. by repeat split.
Qed.

Lemma early_failure_writes_nothing_witness :
  outcome (run (@libraries Demo.engine) notebook demo_world_bad_path)
  = inl (Exception "FileNotFoundException" "s3://demo/missing/")
  ∧ saves (trace (run (@libraries Demo.engine) notebook demo_world_bad_path)) = []
  ∧ tables (final (run (@libraries Demo.engine) notebook demo_world_bad_path))
    = tables demo_world_bad_path.
Proof.
  apply (@early_failure_writes_nothing Demo.engine demo_world_bad_path).
  left. vm_compute. reflexivity.
Defined.

(** In the workspace model, where only listing, cataloging and the SQL
    statements can fail, the notebook completes when these succeed. *)
Lemma completion_conditions `{Engine} (w : World) :
  let table := table_of w in
  let conf' := <["c.table" := table]> (conf w) in
  (∃ v, outcome (run libraries notebook w) = inr v)
  ↔ ∃ cat,
      returns (ls (path_of w))
      ∧ catalog (path_of w) = inr cat
      ∧ returns (query conf' (<[table := cat]> (tables w)) sql_count_star)
      ∧ ∀ text, text ∈ [sql_count_one; sql_patients; sql_patient7747] →
          returns (query conf'
                     (<[table := extract_meta (shuffle 10000 cat)]>
                        (<[table := cat]> (tables w))) text).
Proof.
  destruct w as [ws cf tb out]. unfold path_of, table_of. cbn [widgets tables conf].
  cbv zeta. split.
  - intros [v Hv]. revert Hv.
    remember (run libraries notebook _) as r eqn:Hr. revert Hr. unfold_cells.
    exec_lib. all: read_run; intros Hv; try discriminate Hv.
    eexists. repeat split; try by eexists.
    intros text Htext. unfold returns.
    repeat (apply elem_of_cons in Htext as [->|Htext]; [eauto|]).
    by apply elem_of_nil in Htext.
  - intros (cat & [files Hls] & Hcat & [d1 Hq1] & Hq).
    destruct (Hq sql_count_one) as [d2 Hq2]; [solve_elem|].
    destruct (Hq sql_patients) as [d3 Hq3]; [solve_elem|].
    destruct (Hq sql_patient7747) as [d4 Hq4]; [solve_elem|].
    remember (run libraries notebook _) as r eqn:Hr. revert Hr. unfold_cells.
    repeat (lib_cbn;
            first [ lib_lookup | rewrite Hls | rewrite Hcat | rewrite Hq1
                  | rewrite Hq2 | rewrite Hq3 | rewrite Hq4 ]).
    read_run. by eexists.
Qed.

(** X9: the numbers shown can only shrink along the notebook.  The first
    count is the number of rows of the catalog, which the metadata
    dataframe keeps; the second count is at most the first, and the
    thumbnails are at most the second count.  So an empty catalog gives
    two counts of 0 and no thumbnail. *)
Theorem counts_shrink `{E : Engine} {L : EngineLaws E} (w : World) (v : Vars) :
  outcome (run libraries notebook w) = inr v →
  ∃ n1 n2,
    (counts (trace (run libraries notebook w))).*2 = [n1; n2]
    ∧ n1 = Z.of_nat (length (df_rows (v_catalog_df v)))
    ∧ n1 = Z.of_nat (length (df_rows (v_meta_df v)))
    ∧ (0 ≤ n2 ≤ n1)%Z
    ∧ (Z.of_nat (length (thumbnails (v_plots v))) ≤ n2)%Z.
Proof.
  intros Hv. destruct (completed_run w v Hv)
    as (files & cat & _ & _ & -> & _ & _ & _ & _ & Hcounts & _).
  cbn [v_catalog_df v_meta_df v_dcm_df_filtered v_plots] in *.
  set (meta := extract_meta (shuffle 10000 cat)) in *.
  set (kept := shuffle 1000 (df_filter filter_condition meta)) in *.
  assert (length (df_rows meta) = length (df_rows cat)) as Hmeta.
  { unfold meta, extract_meta. cbn [df_rows]. rewrite length_fmap.
    apply Permutation_length, shuffle_rows. }
  assert (length (df_rows kept) ≤ length (df_rows meta))%nat as Hkept.
  { unfold kept. rewrite (Permutation_length (shuffle_rows 1000 _)).
    unfold df_filter. cbn [df_rows]. apply List.filter_length_le. }
  exists (df_count cat), (df_count kept). rewrite Hcounts.
  unfold df_count, plotx, df_limit. cbn [df_rows fr_df thumbnails].
  rewrite length_fmap, length_take.
  repeat split; try reflexivity; lia.
Qed.

Lemma counts_shrink_witness :
  ∃ n1 n2,
    (counts (trace demo_run)).*2 = [n1; n2]
    ∧ n1 = Z.of_nat (length (df_rows (v_catalog_df demo_vars)))
    ∧ n1 = Z.of_nat (length (df_rows (v_meta_df demo_vars)))
    ∧ (0 ≤ n2 ≤ n1)%Z
    ∧ (Z.of_nat (length (thumbnails (v_plots demo_vars))) ≤ n2)%Z.
Proof.
  apply (@counts_shrink Demo.engine demo_laws Demo.world demo_vars).
  vm_compute. reflexivity.
Defined.

(** X10: whatever happens, the notebook writes nothing but the table the
    widget names and the configuration key [c.table]: in every run, also
    one that fails, every other table and every other key is as it was. *)
Theorem only_widget_table_written `{Engine} (w : World) :
  (∀ other, other ≠ table_of w →
     tables (final (run libraries notebook w)) !! other = tables w !! other)
  ∧ (∀ key, key ≠ "c.table" →
       conf (final (run libraries notebook w)) !! key = conf w !! key).
Proof.
  destruct w as [ws cf tb out]. unfold table_of. cbn [widgets tables conf].
  remember (run libraries notebook _) as r eqn:Hr. revert Hr. unfold_cells.
  exec_lib. all: read_run.
  all: split; [intros other Hne|intros key Hne].
  all: rewrite ?lookup_insert_ne by done; reflexivity.
Qed.

(** X11: what the notebook shows, the installation log of [%pip] apart.
    A completed run shows, in this order: the path and the table name,
    the file listing, the catalog as built, the result of the count query,
    the catalog as reloaded and its count, the table read back after the
    second save, the results of the three queries, the count of the
    filtered rows, and the plots.  Each is the value a library call of
    the run returned; the metadata dataframe is shown only as read back
    from the table. *)
Theorem shown_values {W : Type} (h : Handler W) (w : W) (v : Vars) :
  outcome (run h notebook w) = inr v →
  let t := trace (run h notebook w) in
  ∃ files cat counted stored counted' patients patient7747 n1 n2,
    listed t = [files]
    ∧ cataloged t = [cat]
    ∧ table_reads t = [stored]
    ∧ counts t = [(v_catalog_df v, n1); (v_dcm_df_filtered v, n2)]
    ∧ operations t !! 5%nat = Some (Queries sql_count_star counted)
    ∧ operations t !! 11%nat = Some (Queries sql_count_one counted')
    ∧ operations t !! 12%nat = Some (Queries sql_patients patients)
    ∧ operations t !! 13%nat = Some (Queries sql_patient7747 patient7747)
    ∧ shown t = [PStr (v_path v); PStr (v_table v); PFiles files; PDF cat;
                 PDF counted; PDF (v_catalog_df v); PInt n1; PDF stored;
                 PDF counted'; PDF patients; PDF patient7747; PInt n2;
                 PPlots (v_plots v)].
Proof.
  intros Hv. cbv zeta. revert Hv. exec h; intros Hv; try discriminate Hv.
  injection Hv as <-. eexists _, _, _, _, _, _, _, _, _. vm_compute. solve_order.
Qed.

Lemma shown_values_witness :
  ∃ files cat counted stored counted' patients patient7747 n1 n2,
    listed (trace demo_run) = [files]
    ∧ cataloged (trace demo_run) = [cat]
    ∧ table_reads (trace demo_run) = [stored]
    ∧ counts (trace demo_run)
      = [(v_catalog_df demo_vars, n1); (v_dcm_df_filtered demo_vars, n2)]
    ∧ operations (trace demo_run) !! 5%nat = Some (Queries sql_count_star counted)
    ∧ operations (trace demo_run) !! 11%nat = Some (Queries sql_count_one counted')
    ∧ operations (trace demo_run) !! 12%nat = Some (Queries sql_patients patients)
    ∧ operations (trace demo_run) !! 13%nat
      = Some (Queries sql_patient7747 patient7747)
    ∧ shown (trace demo_run)
      = [PStr (v_path demo_vars); PStr (v_table demo_vars); PFiles files; PDF cat;
         PDF counted; PDF (v_catalog_df demo_vars); PInt n1; PDF stored;
         PDF counted'; PDF patients; PDF patient7747; PInt n2;
         PPlots (v_plots demo_vars)].
Proof.
  apply (shown_values (@libraries Demo.engine) Demo.world demo_vars).
  vm_compute. reflexivity.
Defined.

(** Declaring a widget the notebook already has changes nothing. *)
Lemma widgets_text_declared (name value : string) (ws : gmap string string) :
  is_Some (ws !! name) → widgets_text name value ws = ws.
Proof. intros [v Hv]. unfold widgets_text. by rewrite Hv. Qed.

(** The widgets and the configuration a completed run leaves. *)
Lemma completed_world `{Engine} (w : World) (v : Vars) :
  outcome (run libraries notebook w) = inr v →
  widgets (final (run libraries notebook w))
  = widgets_text "table" "<catalog>.<schema>.<table>"
      (widgets_text "path" "s3://hls-eng-data-public/dicom/ddsm/" (widgets w))
  ∧ conf (final (run libraries notebook w)) = <["c.table" := table_of w]> (conf w).
Proof.
  destruct w as [ws cf tb out]. unfold table_of. cbn [widgets tables conf].
  remember (run libraries notebook _) as r eqn:Hr. revert Hr. unfold_cells.
  exec_lib. all: read_run; intros Hv; try discriminate Hv.
  by split.
Qed.

(** X12: running the notebook again changes nothing but what is shown.
    After a completed run a second run completes too, with the same
    variables, and leaves the same tables, configuration and widgets:
    both saves overwrite, and the widgets keep their values. *)
Theorem rerun_changes_nothing `{Engine} (w : World) (v : Vars) :
  outcome (run libraries notebook w) = inr v →
  let w' := final (run libraries notebook w) in
  outcome (run libraries notebook w') = inr v
  ∧ tables (final (run libraries notebook w')) = tables w'
  ∧ conf (final (run libraries notebook w')) = conf w'
  ∧ widgets (final (run libraries notebook w')) = widgets w'.
Proof.
  intros Hv. cbv zeta.
  destruct (completed_run w v Hv)
    as (files & cat & Hls & Hcat & Hvars & Htables & _).
  destruct (completed_world w v Hv) as [Hwidgets Hconf].
  destruct (proj1 (completion_conditions w) (ex_intro _ v Hv))
    as (cat' & _ & Hcat' & Hq1 & Hq).
  rewrite Hcat in Hcat'. injection Hcat' as <-.
  set (w' := final (run libraries notebook w)) in *.
  assert (path_of w' = path_of w) as Hpath.
  { unfold path_of. rewrite Hwidgets.
    rewrite (widgets_text_ne "table" _ "path") by done.
    rewrite widgets_text_eq. by destruct (widgets w !! "path"). }
  assert (table_of w' = table_of w) as Htable.
  { unfold table_of. rewrite Hwidgets, widgets_text_eq.
    rewrite (widgets_text_ne "path" _ "table") by done.
    by destruct (widgets w !! "table"). }
  assert (v_meta_df v = extract_meta (shuffle 10000 cat)) as Hmeta by by subst v.
  assert (∃ v', outcome (run libraries notebook w') = inr v') as [v' Hv'].
  { apply completion_conditions. exists cat. rewrite Hpath, Htable, Hconf, Htables, Hmeta.
    rewrite !insert_insert_eq. rewrite insert_insert_eq in Hq.
    split; [by rewrite Hls; eexists|]. by repeat split. }
  destruct (completed_run w' v' Hv')
    as (files' & cat' & _ & Hcat' & Hvars' & Htables' & _).
  destruct (completed_world w' v' Hv') as [Hwidgets' Hconf'].
  rewrite Hpath, Hcat in Hcat'. injection Hcat' as <-.
  rewrite Hpath, Htable in Hvars'. rewrite <- Hvars in Hvars'. subst v'.
  split; [exact Hv'|]. rewrite Htables', Hconf', Htable, Hconf, Htables.
  rewrite !insert_insert_eq. repeat split.
  rewrite Hwidgets', Hwidgets.
  rewrite (widgets_text_declared "path"), (widgets_text_declared "table"); [done|..].
  - rewrite widgets_text_eq. by eexists.
  - rewrite (widgets_text_ne "table" _ "path"), widgets_text_eq by done. by eexists.
Qed.

Lemma rerun_changes_nothing_witness :
  outcome (run (@libraries Demo.engine) notebook (final demo_run)) = inr demo_vars
  ∧ tables (final (run (@libraries Demo.engine) notebook (final demo_run)))
    = tables (final demo_run)
  ∧ conf (final (run (@libraries Demo.engine) notebook (final demo_run)))
    = conf (final demo_run)
  ∧ widgets (final (run (@libraries Demo.engine) notebook (final demo_run)))
    = widgets (final demo_run).
Proof.
  apply (@rerun_changes_nothing Demo.engine Demo.world demo_vars).
  vm_compute. reflexivity.
Defined.
